(** * Daily sales statistics of the point-of-sale backend

    A shallow embedding of the statistics aggregator
    ([StatsSchema.statics.updateStats], [StatsSchema.statics.getDashboardStats],
    config/database.js) and of the order endpoint that feeds it
    ([app.post('/api/orders')], server.js), with the properties of the
    daily rollup record proved over it.

    Conventions of the embedding.
    - A JavaScript number is an integer [Num z], or [NaN]; [Undef] stands for
      a field that the JSON body does not carry.  A sum is the sum of the
      integers.  The program adds doubles: it computes that sum when the
      operands and the sum are safe integers, of magnitude at most 2^53 - 1
      ([exact_sum], [js_add_exact]), and a rounded one beyond
      ([double_add_rounds]).  The theorem on the values of the four counters
      has this bound as a hypothesis ([exact_counts]).
    - Line items carry a [name] string and the [type] of an order is a
      string when it is there (the payload contract); the other fields of an
      item and of the payload may be missing.
    - Of Mongoose the embedding keeps what the schemas of the repository ask
      of it: the defaults of the paths a constructor is not given, and the
      cast of [Number] paths, which refuses [NaN] and makes [save] reject.
    - The database is a pair of collections.  Every [await]ed store
      operation may be rejected; the rejections of a run are fixed by the
      list [faults] of the world, one flag per operation.
    - The clock is read once per call: a day number, an hour of the day and
      an instant. *)

From Stdlib Require Import ZArith String Ascii List Bool Lia Sorting.Sorted Sorting.Permutation.
From stdpp Require Import base option list sorting gmap strings.

Local Open Scope string_scope.
Local Open Scope Z_scope.

(** ** JavaScript values *)

Inductive jsnum : Type :=
  | Undef
  | Num (z : Z)
  | NaN.

(** [a + b] on numbers; [undefined] and [NaN] operands give [NaN].  On two
    integers this is their sum in [Z], which is what the addition of the
    program gives for safe integers with a safe sum ([exact_sum]). *)
Definition js_add (a b : jsnum) : jsnum :=
  match a, b with
  | Num x, Num y => Num (x + y)
  | _, _ => NaN
  end.

(** [Number.MAX_SAFE_INTEGER], which is 2^53 - 1. *)
Definition MAX_SAFE_INTEGER : Z := 9007199254740991.

(** [Number.isSafeInteger(a)] *)
Definition safe_integer (a : jsnum) : bool :=
  match a with
  | Num z => (- MAX_SAFE_INTEGER <=? z) && (z <=? MAX_SAFE_INTEGER)
  | _ => false
  end.

(** The operands of [a + b] and the sum are safe integers. *)
Definition exact_sum (a b : jsnum) : bool :=
  safe_integer a && safe_integer b && safe_integer (js_add a b).

(** The double nearest to an integer: an integer below 2^53 in magnitude is
    a double; a larger one keeps the 53 leading bits of its magnitude,
    rounded to nearest with ties to the even significand.  (Short of 2^1024,
    where a double overflows.) *)
Definition round_to_double (z : Z) : Z :=
  let m := Z.abs z in
  if m <=? MAX_SAFE_INTEGER then z
  else
    let k := Z.log2 m - 52 in
    let q := Z.shiftr m k in
    let r := m - Z.shiftl q k in
    let half := Z.shiftl 1 (k - 1) in
    let q' := if r <? half then q
              else if half <? r then q + 1
              else if Z.even q then q else q + 1 in
    Z.sgn z * Z.shiftl q' k.

(** [a + b] as the program computes it on two integers that are doubles:
    the exact sum, rounded. *)
Definition double_add (a b : jsnum) : jsnum :=
  match a, b with
  | Num x, Num y => Num (round_to_double (x + y))
  | _, _ => NaN
  end.

(** [a - b]. *)
Definition js_sub (a b : jsnum) : jsnum :=
  match a, b with
  | Num x, Num y => Num (x - y)
  | _, _ => NaN
  end.

(** Truthiness: [undefined], [0] and [NaN] are falsy. *)
Definition truthy (a : jsnum) : bool :=
  match a with
  | Num z => negb (z =? 0)
  | _ => false
  end.

(** [a || d] on numbers. *)
Definition js_or (a d : jsnum) : jsnum := if truthy a then a else d.

(** [s || d] on an optional string: [undefined] and the empty string are falsy. *)
Definition str_truthy (s : option string) : bool :=
  match s with
  | Some EmptyString | None => false
  | Some _ => true
  end.

Definition str_or (s : option string) (d : string) : string :=
  match s with
  | Some (String c r) => String c r
  | _ => d
  end.

(** [String.prototype.toLowerCase] on ASCII text. *)
Definition lower_ascii (c : ascii) : ascii :=
  let n := nat_of_ascii c in
  if ((65 <=? n)%nat && (n <=? 90)%nat)%bool then ascii_of_nat (n + 32) else c.

Fixpoint toLowerCase (s : string) : string :=
  match s with
  | EmptyString => EmptyString
  | String c r => String (lower_ascii c) (toLowerCase r)
  end.

(** [s.includes(sub)]. *)
Fixpoint includes (s sub : string) : bool :=
  String.prefix sub s ||
  match s with
  | EmptyString => false
  | String _ r => includes r sub
  end.

(** ** The order payload and the collections *)

Module Item.
Record t : Type := mk {
  name : string;
  price : jsnum;
  quantity : jsnum;
  image : option string
}.
End Item.

Module Customer.
Record t : Type := mk {
  name : option string;
  phone : option string
}.
End Customer.

(** The body of [POST /api/orders], which is also the argument of
    [updateStats]. *)
Module OrderData.
Record t : Type := mk {
  items : list Item.t;
  subtotal : jsnum;
  tax : jsnum;
  total : jsnum;
  type : option string;
  customer : option Customer.t
}.
End OrderData.

(** A document of the [Order] collection ([orderSchema]). *)
Module OrderItem.
Record t : Type := mk {
  name : string;
  price : jsnum;
  quantity : jsnum;
  image : string
}.
End OrderItem.

Module Order.
Record t : Type := mk {
  _id : nat;
  items : list OrderItem.t;
  subtotal : jsnum;
  tax : jsnum;
  total : jsnum;
  type : option string;
  customerName : string;
  customerPhone : string;
  createdAt : Z
}.
End Order.

(** An entry of [topProducts]. *)
Module Product.
Record t : Type := mk {
  name : string;
  quantity : jsnum
}.
End Product.

Module CategoryStats.
Record t : Type := mk {
  Rice : jsnum;
  Sizzling : jsnum;
  Party : jsnum;
  Drink : jsnum;
  Cafe : jsnum;
  Milk : jsnum;
  Frappe : jsnum
}.

Definition zero : t := mk (Num 0) (Num 0) (Num 0) (Num 0) (Num 0) (Num 0) (Num 0).

(** [c.Rice += q], and likewise for the other buckets. *)
Definition add_Rice (q : jsnum) (c : t) : t :=
  mk (js_add (Rice c) q) (Sizzling c) (Party c) (Drink c) (Cafe c) (Milk c) (Frappe c).
Definition add_Sizzling (q : jsnum) (c : t) : t :=
  mk (Rice c) (js_add (Sizzling c) q) (Party c) (Drink c) (Cafe c) (Milk c) (Frappe c).
Definition add_Party (q : jsnum) (c : t) : t :=
  mk (Rice c) (Sizzling c) (js_add (Party c) q) (Drink c) (Cafe c) (Milk c) (Frappe c).
Definition add_Drink (q : jsnum) (c : t) : t :=
  mk (Rice c) (Sizzling c) (Party c) (js_add (Drink c) q) (Cafe c) (Milk c) (Frappe c).
Definition add_Cafe (q : jsnum) (c : t) : t :=
  mk (Rice c) (Sizzling c) (Party c) (Drink c) (js_add (Cafe c) q) (Milk c) (Frappe c).
Definition add_Milk (q : jsnum) (c : t) : t :=
  mk (Rice c) (Sizzling c) (Party c) (Drink c) (Cafe c) (js_add (Milk c) q) (Frappe c).
Definition add_Frappe (q : jsnum) (c : t) : t :=
  mk (Rice c) (Sizzling c) (Party c) (Drink c) (Cafe c) (Milk c) (js_add (Frappe c) q).
End CategoryStats.

(** The clock of one call. *)
Record Clock : Type := mkClock {
  today : Z;      (* the day, as a count of local midnights *)
  hour : Z;       (* [new Date().getHours()] *)
  now : Z         (* [new Date()] *)
}.

Inductive Error : Type :=
  | PersistenceError
  | ValidationError.

Inductive LogEntry : Type :=
  | OrderSaved (id : nat)
  | StatsUpdateError (e : Error)
  | OrderCreationError (e : Error).

(** ** The daily rollup record ([StatsSchema]) *)

Record Stats : Type := mkStats {
  date : Z;
  totalOrders : jsnum;
  ordersToday : jsnum;
  itemsSold : jsnum;
  itemsSoldToday : jsnum;
  dineInOrders : jsnum;
  takeoutOrders : jsnum;
  categoryStats : CategoryStats.t;
  topProducts : list Product.t;
  hourlyStats : gmap Z jsnum;
  lastUpdated : Z
}.

(** The schema default of [hourlyStats]: the keys 0 to 23, each at 0. *)
Definition defaultHourlyStats : gmap Z jsnum :=
  list_to_map ((fun h => (h, Num 0)) <$> seqZ 0 24).

(** [new this({ date, totalOrders, itemsSold, dineInOrders, takeoutOrders,
    categoryStats })]: the paths the constructor is given come from
    yesterday's record when there is one; every other path takes its schema
    default. *)
Definition newStats (clk : Clock) (yesterdayStats : option Stats) : Stats :=
  {| date := today clk;
     totalOrders := match yesterdayStats with Some y => totalOrders y | None => Num 0 end;
     ordersToday := Num 0;
     itemsSold := match yesterdayStats with Some y => itemsSold y | None => Num 0 end;
     itemsSoldToday := Num 0;
     dineInOrders := match yesterdayStats with Some y => dineInOrders y | None => Num 0 end;
     takeoutOrders := match yesterdayStats with Some y => takeoutOrders y | None => Num 0 end;
     categoryStats := match yesterdayStats with
                      | Some y => categoryStats y
                      | None => CategoryStats.zero
                      end;
     topProducts := [];
     hourlyStats := defaultHourlyStats;
     lastUpdated := now clk |}.

(** ** The steps of [updateStats] *)

(** [items.reduce((sum, item) => sum + item.quantity, 0)] *)
Definition itemsInOrder (items : list Item.t) : jsnum :=
  fold_left (fun sum item => js_add sum (Item.quantity item)) items (Num 0).

(** [orderData.type === s] *)
Definition type_is (ty : option string) (s : string) : bool :=
  match ty with
  | Some t => String.eqb t s
  | None => false
  end.

(** [if (type === 'Dine In') dineInOrders += 1
     else if (type === 'Take Out') takeoutOrders += 1],
    on the pair (dineInOrders, takeoutOrders). *)
Definition countType (ty : option string) (counters : jsnum * jsnum) : jsnum * jsnum :=
  if type_is ty "Dine In" then (js_add counters.1 (Num 1), counters.2)
  else if type_is ty "Take Out" then (counters.1, js_add counters.2 (Num 1))
  else counters.

(** [hourlyStats[hour] = (hourlyStats[hour] || 0) + 1] *)
Definition countHour (h : Z) (m : gmap Z jsnum) : gmap Z jsnum :=
  <[h := js_add (js_or (default Undef (m !! h)) (Num 0)) (Num 1)]> m.

#[global] Arguments defaultHourlyStats : simpl never.
#[global] Arguments countHour : simpl never.

(** The body of the first [forEach]: the keyword rules, in their order. *)
Definition categorize (item : Item.t) (c : CategoryStats.t) : CategoryStats.t :=
  let itemName := toLowerCase (Item.name item) in
  let q := Item.quantity item in
  if includes itemName "bulgogi" || includes itemName "lechon" ||
     includes itemName "chicken" || includes itemName "adobo" ||
     includes itemName "shanghai" || includes itemName "fish" ||
     includes itemName "dory" || includes itemName "pork"
  then CategoryStats.add_Rice q c
  else if includes itemName "sizzling" || includes itemName "sisig" ||
          includes itemName "liempo" || includes itemName "porkchop"
  then CategoryStats.add_Sizzling q c
  else if includes itemName "pancit" || includes itemName "spaghetti" ||
          includes itemName "party"
  then CategoryStats.add_Party q c
  else if includes itemName "lemonade" || includes itemName "soda" ||
          (includes itemName "red tea" && negb (includes itemName "milk"))
  then CategoryStats.add_Drink q c
  else if includes itemName "cafe" || includes itemName "americano" ||
          includes itemName "latte" || includes itemName "macchiato" ||
          includes itemName "coffee"
  then CategoryStats.add_Cafe q c
  else if includes itemName "milk tea" || includes itemName "matcha green tea"
  then CategoryStats.add_Milk q c
  else if includes itemName "frappe" || includes itemName "cookies & cream"
  then CategoryStats.add_Frappe q c
  else c.

(** The body of the second [forEach]: [find] the first entry of that name
    and add to it, or [push] a new entry at the end. *)
Fixpoint upsert (item : Item.t) (ps : list Product.t) : list Product.t :=
  match ps with
  | [] => [Product.mk (Item.name item) (Item.quantity item)]
  | p :: ps' =>
      if String.eqb (Product.name p) (Item.name item)
      then Product.mk (Product.name p)
             (js_add (Product.quantity p) (Item.quantity item)) :: ps'
      else p :: upsert item ps'
  end.

(** [(a, b) => b.quantity - a.quantity] *)
Definition compareFn (a b : Product.t) : jsnum :=
  js_sub (Product.quantity b) (Product.quantity a).

(** [Array.prototype.sort(cmp)].  The sort is stable, and [a] is placed
    after [b] only when [cmp(a, b) > 0] (a [NaN] result counts as 0): for a
    consistent comparator the result is the one of a stable insertion sort. *)
Definition after {A : Type} (cmp : A -> A -> jsnum) (a b : A) : bool :=
  match cmp a b with
  | Num v => 0 <? v
  | _ => false
  end.

Fixpoint insert_sorted {A : Type} (cmp : A -> A -> jsnum) (x : A) (l : list A) : list A :=
  match l with
  | [] => [x]
  | y :: l' => if after cmp x y then y :: insert_sorted cmp x l' else x :: l
  end.

Definition sort {A : Type} (cmp : A -> A -> jsnum) (l : list A) : list A :=
  foldr (insert_sorted cmp) [] l.

(** [topProducts.slice(0, 10)] after the upserts and the sort. *)
Definition updateTopProducts (items : list Item.t) (ps : list Product.t) : list Product.t :=
  take 10 (sort compareFn (fold_left (fun ps item => upsert item ps) items ps)).

(** Lines 249 to 308 of [updateStats]: every mutation of the loaded or
    newly created document, up to the call of [save]. *)
Definition applyOrder (clk : Clock) (orderData : OrderData.t) (stats : Stats) : Stats :=
  let items := OrderData.items orderData in
  let byType := countType (OrderData.type orderData) (dineInOrders stats, takeoutOrders stats) in
  {| date := date stats;
     totalOrders := js_add (totalOrders stats) (Num 1);
     ordersToday := js_add (ordersToday stats) (Num 1);
     itemsSold := js_add (itemsSold stats) (itemsInOrder items);
     itemsSoldToday := js_add (itemsSoldToday stats) (itemsInOrder items);
     dineInOrders := byType.1;
     takeoutOrders := byType.2;
     categoryStats := fold_left (fun c item => categorize item c) items (categoryStats stats);
     topProducts := updateTopProducts items (topProducts stats);
     hourlyStats := countHour (hour clk) (hourlyStats stats);
     lastUpdated := now clk |}.

(** ** The world: collections, console, and pending store faults *)

Record World : Type := mkWorld {
  orders : list Order.t;          (* the Order collection *)
  statsColl : gmap Z Stats;       (* the Stats collection, by its unique [date] *)
  console : list LogEntry;        (* what was logged, latest first *)
  faults : list bool              (* [true]: the next store operation is rejected *)
}.

Inductive Result (A : Type) : Type :=
  | Ok (a : A)
  | Throw (e : Error).
Arguments Ok {A} a.
Arguments Throw {A} e.

(** An [async] computation: it runs on a world and either returns or throws;
    what it did to the world before throwing stays done. *)
Definition M (A : Type) : Type := World -> Result A * World.

#[global] Instance M_ret : MRet M := fun A a w => (Ok a, w).

#[global] Instance M_bind : MBind M := fun A B f m w =>
  match m w with
  | (Ok a, w') => f a w'
  | (Throw e, w') => (Throw e, w')
  end.

(** [try { m } catch (e) { handler(e) }] *)
Definition try_catch {A : Type} (m : M A) (handler : Error -> M A) : M A := fun w =>
  match m w with
  | (Ok a, w') => (Ok a, w')
  | (Throw e, w') => handler e w'
  end.

Definition log (entry : LogEntry) : M unit := fun w =>
  (Ok tt, mkWorld (orders w) (statsColl w) (entry :: console w) (faults w)).

(** One [await]ed store operation: rejected when the next fault flag says
    so, performed otherwise. *)
Definition await {A : Type} (op : World -> A * World) : M A := fun w =>
  match faults w with
  | true :: fs => (Throw PersistenceError, mkWorld (orders w) (statsColl w) (console w) fs)
  | false :: fs =>
      let '(a, w') := op (mkWorld (orders w) (statsColl w) (console w) fs) in (Ok a, w')
  | [] => let '(a, w') := op w in (Ok a, w')
  end.

(** [Stats.findOne({ date: d })] *)
Definition findOne (d : Z) : M (option Stats) :=
  await (fun w => (statsColl w !! d, w)).

(** Mongoose casts what is assigned to a [Number] path and refuses [NaN];
    the document is then invalid and [save] rejects with a validation error
    before anything is written. *)
Definition castable (n : jsnum) : bool :=
  match n with
  | NaN => false
  | _ => true
  end.

Definition validate (s : Stats) : bool :=
  let c := categoryStats s in
  castable (totalOrders s) && castable (ordersToday s) &&
  castable (itemsSold s) && castable (itemsSoldToday s) &&
  castable (dineInOrders s) && castable (takeoutOrders s) &&
  castable (CategoryStats.Rice c) && castable (CategoryStats.Sizzling c) &&
  castable (CategoryStats.Party c) && castable (CategoryStats.Drink c) &&
  castable (CategoryStats.Cafe c) && castable (CategoryStats.Milk c) &&
  castable (CategoryStats.Frappe c) &&
  forallb (fun p => castable (Product.quantity p)) (topProducts s) &&
  forallb (fun kv => castable kv.2) (map_to_list (hourlyStats s)).

(** [stats.save()] *)
Definition save (s : Stats) : M unit := fun w =>
  if validate s
  then await (fun w =>
         (tt, mkWorld (orders w) (<[date s := s]> (statsColl w)) (console w) (faults w))) w
  else (Throw ValidationError, w).

(** ** [StatsSchema.statics.updateStats] *)

Definition updateStats (clk : Clock) (orderData : OrderData.t) : M Stats :=
  found ← findOne (today clk);
  stats ← match found with
          | Some s => mret s
          | None =>
              yesterdayStats ← findOne (today clk - 1);
              mret (newStats clk yesterdayStats)
          end;
  let stats := applyOrder clk orderData stats in
  _ ← save stats;
  mret stats.

(** ** [StatsSchema.statics.getDashboardStats] *)

Module Dashboard.
Record t : Type := mk {
  totalOrders : jsnum;
  totalProducts : jsnum;
  totalStocks : jsnum;
  ordersToday : jsnum;
  itemsSoldToday : jsnum;
  dineInToday : jsnum;
  takeoutToday : jsnum;
  categoryStats : CategoryStats.t;
  hourlyStats : gmap Z jsnum;
  topProducts : list Product.t
}.

(** The literal returned when today has no record. *)
Definition zero : t :=
  mk (Num 0) (Num 0) (Num 0) (Num 0) (Num 0) (Num 0) (Num 0)
     CategoryStats.zero ∅ [].
End Dashboard.

Definition getDashboardStats (clk : Clock) : M Dashboard.t :=
  stats ← findOne (today clk);
  match stats with
  | None => mret Dashboard.zero
  | Some stats =>
      let uniqueProducts := Num (Z.of_nat (length (topProducts stats))) in
      mret {| Dashboard.totalOrders := totalOrders stats;
              Dashboard.totalProducts := uniqueProducts;
              Dashboard.totalStocks := itemsSold stats;
              Dashboard.ordersToday := ordersToday stats;
              Dashboard.itemsSoldToday := itemsSoldToday stats;
              Dashboard.dineInToday := dineInOrders stats;
              Dashboard.takeoutToday := takeoutOrders stats;
              Dashboard.categoryStats := categoryStats stats;
              Dashboard.hourlyStats := hourlyStats stats;
              Dashboard.topProducts := topProducts stats |}
  end.

(** ** [app.post('/api/orders')] *)

Inductive Response : Type :=
  | BadRequest (message : string)     (* 400 { success: false, message } *)
  | OrderProcessed (orderId : nat)    (* 200 { success: true, orderId, message } *)
  | ServerError (e : Error).          (* 500 { success: false, message } *)

(** [if (!orderData.type) orderData.type = "Dine In"]: the assignment is on
    the payload object itself. *)
Definition defaultType (orderData : OrderData.t) : OrderData.t :=
  if str_truthy (OrderData.type orderData) then orderData
  else OrderData.mk (OrderData.items orderData) (OrderData.subtotal orderData)
         (OrderData.tax orderData) (OrderData.total orderData) (Some "Dine In")
         (OrderData.customer orderData).

(** The callback of [orderData.items.map]: a new object per item. *)
Definition orderItem (item : Item.t) : OrderItem.t :=
  {| OrderItem.name := str_or (Some (Item.name item)) "Unknown Item";
     OrderItem.price := js_or (Item.price item) (Num 0);
     OrderItem.quantity := js_or (Item.quantity item) (Num 1);
     OrderItem.image := str_or (Item.image item) "default_food.jpg" |}.

(** [new Order({ ... })]; the identifier is fresh in the collection. *)
Definition newOrder (clk : Clock) (orderData : OrderData.t) : M Order.t := fun w =>
  (Ok {| Order._id := length (orders w);
         Order.items := orderItem <$> OrderData.items orderData;
         Order.subtotal := js_or (OrderData.subtotal orderData) (Num 0);
         Order.tax := js_or (OrderData.tax orderData) (Num 0);
         Order.total := OrderData.total orderData;
         Order.type := OrderData.type orderData;
         Order.customerName :=
           str_or (OrderData.customer orderData ≫= Customer.name) "Guest";
         Order.customerPhone :=
           str_or (OrderData.customer orderData ≫= Customer.phone) "N/A";
         Order.createdAt := now clk |}, w).

(** [order.save()] *)
Definition saveOrder (order : Order.t) : M Order.t :=
  await (fun w =>
    (order, mkWorld (orders w ++ [order]) (statsColl w) (console w) (faults w))).

Definition postOrders (clk : Clock) (orderData : OrderData.t) : World -> Response * World :=
  fun w =>
  let handler : M Response :=
    if bool_decide (OrderData.items orderData = [])
    then mret (BadRequest "No items in order")
    else if negb (truthy (OrderData.total orderData))
    then mret (BadRequest "Total amount is required")
    else
      let orderData := defaultType orderData in
      order ← newOrder clk orderData;
      savedOrder ← saveOrder order;
      _ ← log (OrderSaved (Order._id savedOrder));
      _ ← try_catch (_ ← updateStats clk orderData; mret tt)
            (fun statsError => log (StatsUpdateError statsError));
      mret (OrderProcessed (Order._id savedOrder))
  in
  match handler w with
  | (Ok response, w') => (response, w')
  | (Throw error, w') =>
      (ServerError error,
       mkWorld (orders w') (statsColl w') (OrderCreationError error :: console w') (faults w'))
  end.

(** The first statements of the accepted path of the handler: build the
    order document, save it, log its identifier. *)
Definition placeOrder (clk : Clock) (orderData : OrderData.t) : M Order.t :=
  order ← newOrder clk orderData;
  savedOrder ← saveOrder order;
  _ ← log (OrderSaved (Order._id savedOrder));
  mret savedOrder.

(** The payload passes the two checks of the handler. *)
Definition accepted (orderData : OrderData.t) : bool :=
  negb (bool_decide (OrderData.items orderData = [])) && truthy (OrderData.total orderData).

#[global] Arguments updateStats : simpl never.

(** ** Well-formed payloads and records *)

Definition numeric (n : jsnum) : bool :=
  match n with
  | Num _ => true
  | _ => false
  end.

(** Every line item carries a number as its quantity. *)
Definition numeric_items (items : list Item.t) : bool :=
  forallb (fun item => numeric (Item.quantity item)) items.

(** The valid order payloads: a non-empty list of items, each with a
    positive integer quantity. *)
Definition positive (n : jsnum) : bool :=
  match n with
  | Num q => 0 <? q
  | _ => false
  end.

Definition valid_payload (orderData : OrderData.t) : bool :=
  negb (bool_decide (OrderData.items orderData = [])) &&
  forallb (fun item => positive (Item.quantity item)) (OrderData.items orderData).

(** The sum of the quantities of a payload, as an integer. *)
Definition quantityZ (item : Item.t) : Z :=
  match Item.quantity item with
  | Num q => q
  | _ => 0
  end.

Definition total_quantity (items : list Item.t) : Z :=
  foldr (fun item sum => quantityZ item + sum) 0 items.

Definition category_ok (c : CategoryStats.t) : bool :=
  numeric (CategoryStats.Rice c) && numeric (CategoryStats.Sizzling c) &&
  numeric (CategoryStats.Party c) && numeric (CategoryStats.Drink c) &&
  numeric (CategoryStats.Cafe c) && numeric (CategoryStats.Milk c) &&
  numeric (CategoryStats.Frappe c).

Definition products_ok (ps : list Product.t) : bool :=
  forallb (fun p => numeric (Product.quantity p)) ps.

Definition hourly_ok (m : gmap Z jsnum) : bool :=
  forallb (fun kv => numeric kv.2) (map_to_list m).

(** A record as the store holds it: every [Number] path holds a number. *)
Definition stats_ok (s : Stats) : bool :=
  numeric (totalOrders s) && numeric (ordersToday s) &&
  numeric (itemsSold s) && numeric (itemsSoldToday s) &&
  numeric (dineInOrders s) && numeric (takeoutOrders s) &&
  category_ok (categoryStats s) && products_ok (topProducts s) &&
  hourly_ok (hourlyStats s).

(** The Stats collection holds each record under its own date, and every
    record in it is well formed. *)
Definition store_ok (w : World) : bool :=
  forallb (fun kv => (date kv.2 =? kv.1) && stats_ok kv.2) (map_to_list (statsColl w)).

(** The record [updateStats] works on: today's, or a new one seeded from
    yesterday's. *)
Definition currentStats (clk : Clock) (w : World) : Stats :=
  match statsColl w !! today clk with
  | Some s => s
  | None => newStats clk (statsColl w !! (today clk - 1))
  end.

(** [b] is the number [a] plus [k]. *)
Definition increased_by (a b : jsnum) (k : Z) : Prop :=
  exists n, a = Num n /\ b = Num (n + k).

(** The additions of [updateStats] on the four counters (lines 251-256) are
    exact: each of [totalOrders + 1], [ordersToday + 1], every step
    [sum + item.quantity] of the [reduce], [itemsSold + itemsInOrder] and
    [itemsSoldToday + itemsInOrder] has safe integers as its operands and as
    its sum. *)
Fixpoint exact_reduce (sum : jsnum) (items : list Item.t) : bool :=
  match items with
  | [] => true
  | item :: rest =>
      exact_sum sum (Item.quantity item) &&
      exact_reduce (js_add sum (Item.quantity item)) rest
  end.

Definition exact_counts (clk : Clock) (orderData : OrderData.t) (w : World) : bool :=
  let stats := currentStats clk w in
  let items := OrderData.items orderData in
  exact_sum (totalOrders stats) (Num 1) &&
  exact_sum (ordersToday stats) (Num 1) &&
  exact_reduce (Num 0) items &&
  exact_sum (itemsSold stats) (itemsInOrder items) &&
  exact_sum (itemsSoldToday stats) (itemsInOrder items).

(** A counter between 0 and a bound. *)
Definition at_most (bound : Z) (a : jsnum) : bool :=
  match a with
  | Num n => (0 <=? n) && (n <=? bound)
  | _ => false
  end.

(** An entry list in descending order of quantity. *)
Definition quantity_ge (a b : Product.t) : Prop :=
  exists x y, Product.quantity a = Num x /\ Product.quantity b = Num y /\ y <= x.

Definition sorted_desc (ps : list Product.t) : Prop := StronglySorted quantity_ge ps.

(** Two worlds with the same collections and the same console. *)
Definition same_data (w w' : World) : Prop :=
  orders w' = orders w /\ statsColl w' = statsColl w /\ console w' = console w.

(** A record with another list of top products. *)
Definition with_topProducts (ps : list Product.t) (s : Stats) : Stats :=
  {| date := date s;
     totalOrders := totalOrders s;
     ordersToday := ordersToday s;
     itemsSold := itemsSold s;
     itemsSoldToday := itemsSoldToday s;
     dineInOrders := dineInOrders s;
     takeoutOrders := takeoutOrders s;
     categoryStats := categoryStats s;
     topProducts := ps;
     hourlyStats := hourlyStats s;
     lastUpdated := lastUpdated s |}.

(** The quantities of the entries of a list that carry a given name. *)
Fixpoint quantities_of (n : string) (ps : list Product.t) : list jsnum :=
  match ps with
  | [] => []
  | p :: ps' =>
      if String.eqb (Product.name p) n
      then Product.quantity p :: quantities_of n ps'
      else quantities_of n ps'
  end.

(** What one order alone sells of a product: nothing when no item has
    its name, the sum of the quantities of the items that have it otherwise. *)
Definition add_to_order (n : string) (sold : option jsnum) (item : Item.t) : option jsnum :=
  if String.eqb (Item.name item) n
  then Some (match sold with
             | Some a => js_add a (Item.quantity item)
             | None => Item.quantity item
             end)
  else sold.

Definition order_quantity (n : string) (items : list Item.t) : option jsnum :=
  fold_left (add_to_order n) items None.

(** ** Sample data *)

Definition sample_clock : Clock := mkClock 20000 10 1728000000.

Definition sample_item (name : string) (q : Z) : Item.t :=
  Item.mk name (Num 120) (Num q) None.

Definition sample_order : OrderData.t :=
  OrderData.mk [sample_item "Cafe Latte Tall" 2; sample_item "Plain Rice" 1]
    (Num 360) (Num 0) (Num 360) (Some "Dine In") None.

(** Yesterday's record of the sample store: five orders so far, three of
    them in the ninth hour. *)
Definition sample_yesterday : Stats :=
  {| date := 19999;
     totalOrders := Num 5;
     ordersToday := Num 5;
     itemsSold := Num 9;
     itemsSoldToday := Num 9;
     dineInOrders := Num 4;
     takeoutOrders := Num 1;
     categoryStats := CategoryStats.mk (Num 4) (Num 0) (Num 0) (Num 2) (Num 3) (Num 0) (Num 0);
     topProducts := [Product.mk "Chicken Adobo" (Num 4); Product.mk "Cafe Latte Tall" (Num 3);
                     Product.mk "Lemonade" (Num 2)];
     hourlyStats := <[9 := Num 3]> (<[12 := Num 2]> defaultHourlyStats);
     lastUpdated := 1727950000 |}.

Definition sample_world : World :=
  mkWorld [] {[ 19999 := sample_yesterday ]} [] [].

(** An order of twelve distinct products, on top of yesterday's list. *)
Definition sample_large_order : OrderData.t :=
  OrderData.mk
    [sample_item "Bulgogi" 1; sample_item "Lechon Kawali" 2; sample_item "Pancit" 3;
     sample_item "Soda" 4; sample_item "Americano" 5; sample_item "Milk Tea" 6;
     sample_item "Mocha Frappe" 7; sample_item "Sisig" 8; sample_item "Spaghetti" 9;
     sample_item "Fish Fillet" 10; sample_item "Halo-Halo" 11; sample_item "Liempo" 12]
    (Num 9360) (Num 0) (Num 9360) (Some "Take Out") None.


(** An order whose only item carries no quantity. *)
Definition order_without_quantity : OrderData.t :=
  OrderData.mk [Item.mk "Halo-Halo" (Num 95) Undef None]
    (Num 95) (Num 0) (Num 95) (Some "Take Out") None.

(** The order document saved for [order_without_quantity], and the world
    once it is saved and logged. *)
Definition saved_without_quantity : Order.t :=
  {| Order._id := 0;
     Order.items := [OrderItem.mk "Halo-Halo" (Num 95) (Num 1) "default_food.jpg"];
     Order.subtotal := Num 95;
     Order.tax := Num 0;
     Order.total := Num 95;
     Order.type := Some "Take Out";
     Order.customerName := "Guest";
     Order.customerPhone := "N/A";
     Order.createdAt := 1728000000 |}.

Definition world_after_save : World :=
  mkWorld [saved_without_quantity] {[ 19999 := sample_yesterday ]} [OrderSaved 0] [].

(** Today's record of a busy store: ten products, five sold of each. *)
Definition busy_today : Stats :=
  {| date := 20000;
     totalOrders := Num 30;
     ordersToday := Num 25;
     itemsSold := Num 60;
     itemsSoldToday := Num 50;
     dineInOrders := Num 20;
     takeoutOrders := Num 10;
     categoryStats := CategoryStats.mk (Num 20) (Num 10) (Num 5) (Num 5) (Num 5) (Num 5) (Num 5);
     topProducts :=
       (fun n => Product.mk n (Num 5)) <$>
         ["Bulgogi"; "Lechon Kawali"; "Pancit"; "Soda"; "Americano"; "Milk Tea";
          "Mocha Frappe"; "Sisig"; "Spaghetti"; "Fish Fillet"];
     hourlyStats := <[10 := Num 25]> defaultHourlyStats;
     lastUpdated := 1727999000 |}.

Definition busy_world : World := mkWorld [] {[ 20000 := busy_today ]} [] [].

Definition order_of (name : string) (q : Z) : OrderData.t :=
  OrderData.mk [sample_item name q] (Num (120 * q)) (Num 0) (Num (120 * q))
    (Some "Dine In") None.

(** ** Facts on JavaScript numbers *)

Lemma numeric_Num n : numeric n = true <-> exists z, n = Num z.
Proof. destruct n; simpl; split; intros H; try discriminate; eauto; by destruct H. Qed.

Lemma numeric_castable n : numeric n = true -> castable n = true.
Proof. by destruct n. Qed.

Lemma js_add_numeric a b : numeric a = true -> numeric b = true -> numeric (js_add a b) = true.
Proof. by destruct a, b. Qed.

Lemma js_add_castable_r a b : castable (js_add a b) = true -> numeric b = true.
Proof. by destruct a, b. Qed.

Lemma positive_numeric n : positive n = true -> numeric n = true.
Proof. by destruct n. Qed.

Lemma safe_integer_Num a :
  safe_integer a = true <->
  exists z, a = Num z /\ - MAX_SAFE_INTEGER <= z <= MAX_SAFE_INTEGER.
Proof.
  destruct a as [|z|]; simpl; split; try discriminate.
  - by intros (z & ? & _).
  - intros H. apply andb_prop in H as [Hl Hu]. exists z. split; [done|]. lia.
  - intros (z' & [= <-] & Hl & Hu). apply andb_true_intro. split; lia.
  - by intros (z & ? & _).
Qed.

Lemma round_to_double_safe z :
  - MAX_SAFE_INTEGER <= z <= MAX_SAFE_INTEGER -> round_to_double z = z.
Proof.
  intros Hz. unfold round_to_double.
  destruct (Z.leb_spec (Z.abs z) MAX_SAFE_INTEGER); [done|lia].
Qed.

(** On safe integers with a safe sum, the addition of doubles gives the sum
    of the integers. *)
Lemma js_add_exact a b : exact_sum a b = true -> double_add a b = js_add a b.
Proof.
  unfold exact_sum. intros H.
  apply andb_prop in H as [H Hsum]. apply andb_prop in H as [Ha Hb].
  apply safe_integer_Num in Ha as (x & -> & _).
  apply safe_integer_Num in Hb as (y & -> & _).
  apply safe_integer_Num in Hsum as (z & [= <-] & Hz).
  simpl. by rewrite round_to_double_safe.
Qed.

(** Beyond the safe integers it does not: 2^53 + 1 is 2^53, and a tie goes
    to the even significand. *)
Lemma double_add_rounds :
  double_add (Num 9007199254740992) (Num 1) = Num 9007199254740992 /\
  js_add (Num 9007199254740992) (Num 1) = Num 9007199254740993 /\
  double_add (Num 9007199254740992) (Num 3) = Num 9007199254740996 /\
  double_add (Num (-9007199254740992)) (Num (-1)) = Num (-9007199254740992) /\
  double_add (Num 18014398509481984) (Num 6) = Num 18014398509481992.
Proof. repeat split; reflexivity. Qed.

(** ** The sum of the quantities *)

Lemma fold_add_NaN items :
  fold_left (fun sum item => js_add sum (Item.quantity item)) items NaN = NaN.
Proof. induction items as [|item items IH]; simpl; auto. Qed.

Lemma fold_add_Num items : forall a,
  numeric_items items = true ->
  fold_left (fun sum item => js_add sum (Item.quantity item)) items (Num a)
  = Num (a + total_quantity items).
Proof.
  induction items as [|item items IH]; intros a Hn; simpl.
  - unfold total_quantity. simpl. f_equal. lia.
  - simpl in Hn. apply andb_prop in Hn as [Hq Hr].
    apply numeric_Num in Hq as [q Hq].
    rewrite Hq. simpl. rewrite IH by done.
    unfold total_quantity. simpl. unfold quantityZ at 2. rewrite Hq.
    f_equal. lia.
Qed.

Lemma itemsInOrder_Num items :
  numeric_items items = true -> itemsInOrder items = Num (total_quantity items).
Proof. intros H. unfold itemsInOrder. by rewrite fold_add_Num. Qed.

Lemma fold_add_numeric_inv items : forall acc,
  numeric (fold_left (fun sum item => js_add sum (Item.quantity item)) items acc) = true ->
  numeric_items items = true.
Proof.
  induction items as [|item items IH]; intros acc H; simpl in *; [done|].
  destruct (Item.quantity item) as [|q|] eqn:Hq; simpl.
  - destruct acc; simpl in H; by rewrite fold_add_NaN in H.
  - eauto.
  - destruct acc; simpl in H; by rewrite fold_add_NaN in H.
Qed.

(** The [reduce] over the items, step by step with the addition of doubles,
    gives [itemsInOrder] when each step is exact. *)
Lemma exact_reduce_double items : forall sum,
  exact_reduce sum items = true ->
  fold_left (fun sum item => double_add sum (Item.quantity item)) items sum
  = fold_left (fun sum item => js_add sum (Item.quantity item)) items sum.
Proof.
  induction items as [|item items IH]; intros sum H; simpl in *; [done|].
  apply andb_prop in H as [Hstep Hrest].
  rewrite (js_add_exact _ _ Hstep). by apply IH.
Qed.

Lemma total_quantity_positive items :
  forallb (fun item => positive (Item.quantity item)) items = true ->
  0 <= total_quantity items.
Proof.
  unfold total_quantity.
  induction items as [|item items IH]; intros H; simpl in *; [lia|].
  apply andb_prop in H as [Hq Hr]. specialize (IH Hr).
  unfold quantityZ at 1. destruct (Item.quantity item) as [|q|]; try done.
  simpl in Hq. lia.
Qed.

(** With positive quantities the partial sums grow, so the [reduce] is exact
    when its result is a safe integer. *)
Lemma exact_reduce_positive items : forall a,
  0 <= a ->
  forallb (fun item => positive (Item.quantity item)) items = true ->
  a + total_quantity items <= MAX_SAFE_INTEGER ->
  exact_reduce (Num a) items = true.
Proof.
  induction items as [|item items IH]; intros a Ha H Hsum; simpl in *; [done|].
  apply andb_prop in H as [Hq Hr].
  pose proof (total_quantity_positive items Hr) as Hrest.
  unfold total_quantity in Hsum, Hrest. simpl in Hsum. unfold quantityZ at 1 in Hsum.
  destruct (Item.quantity item) as [|q|]; try done. simpl in Hq.
  apply andb_true_intro. split.
  - apply Z.ltb_lt in Hq. unfold exact_sum. simpl.
    rewrite !andb_true_iff, !Z.leb_le. unfold MAX_SAFE_INTEGER in *. lia.
  - apply Z.ltb_lt in Hq. apply IH; [lia|done|]. unfold total_quantity. lia.
Qed.

Lemma valid_payload_numeric orderData :
  valid_payload orderData = true -> numeric_items (OrderData.items orderData) = true.
Proof.
  unfold valid_payload, numeric_items. intros H.
  apply andb_prop in H as [_ H].
  rewrite forallb_forall in H. apply forallb_forall.
  intros x Hx. apply positive_numeric. auto.
Qed.

(** ** The steps keep a record well formed *)

Ltac split_andb :=
  repeat match goal with
         | H : _ && _ = true |- _ => apply andb_prop in H as [? ?]
         end.

Ltac case_rules :=
  repeat match goal with
         | |- context [if ?b then _ else _] => destruct b
         end.

Lemma categorize_ok item c :
  numeric (Item.quantity item) = true ->
  category_ok c = true -> category_ok (categorize item c) = true.
Proof.
  intros Hq Hc. unfold category_ok in Hc. split_andb.
  unfold categorize. case_rules; try done; unfold category_ok; simpl;
    repeat (apply andb_true_intro; split); auto using js_add_numeric.
Qed.

Lemma fold_categorize_ok items : forall c,
  numeric_items items = true ->
  category_ok c = true ->
  category_ok (fold_left (fun c item => categorize item c) items c) = true.
Proof.
  induction items as [|item items IH]; intros c Hn Hc; simpl; [done|].
  simpl in Hn. apply andb_prop in Hn as [Hq Hr].
  apply IH; [done|]. by apply categorize_ok.
Qed.

Lemma upsert_ok item ps :
  numeric (Item.quantity item) = true ->
  products_ok ps = true -> products_ok (upsert item ps) = true.
Proof.
  intros Hq. induction ps as [|p ps IH]; simpl; intros Hps.
  - by rewrite Hq.
  - apply andb_prop in Hps as [Hp Hr].
    destruct (String.eqb (Product.name p) (Item.name item)); simpl.
    + rewrite Hr. by rewrite js_add_numeric.
    + rewrite Hp. by rewrite IH.
Qed.

Lemma fold_upsert_ok items : forall ps,
  numeric_items items = true ->
  products_ok ps = true ->
  products_ok (fold_left (fun ps item => upsert item ps) items ps) = true.
Proof.
  induction items as [|item items IH]; intros ps Hn Hps; simpl; [done|].
  simpl in Hn. apply andb_prop in Hn as [Hq Hr].
  apply IH; [done|]. by apply upsert_ok.
Qed.

Lemma insert_sorted_forallb {A : Type} (P : A -> bool) cmp x (l : list A) :
  forallb P (insert_sorted cmp x l) = P x && forallb P l.
Proof.
  induction l as [|y l IH]; simpl; [done|].
  destruct (after cmp x y); simpl; [|done].
  rewrite IH. by destruct (P x), (P y).
Qed.

Lemma sort_forallb {A : Type} (P : A -> bool) cmp (l : list A) :
  forallb P (sort cmp l) = forallb P l.
Proof.
  induction l as [|x l IH]; simpl; [done|].
  rewrite insert_sorted_forallb. by rewrite IH.
Qed.

Lemma insert_sorted_perm {A : Type} cmp x (l : list A) :
  Permutation (insert_sorted cmp x l) (x :: l).
Proof.
  induction l as [|y l IH]; simpl; [done|].
  destruct (after cmp x y); [|done].
  rewrite IH. apply perm_swap.
Qed.

Lemma sort_perm {A : Type} cmp (l : list A) : Permutation (sort cmp l) l.
Proof.
  induction l as [|x l IH]; simpl; [done|].
  rewrite insert_sorted_perm. by rewrite IH.
Qed.

Lemma forallb_take {A : Type} (P : A -> bool) n (l : list A) :
  forallb P l = true -> forallb P (take n l) = true.
Proof.
  revert n. induction l as [|x l IH]; intros [|n] H; simpl in *; try done.
  apply andb_prop in H as [-> H]. simpl. auto.
Qed.

Lemma quantity_ge_trans a b c : quantity_ge a b -> quantity_ge b c -> quantity_ge a c.
Proof.
  intros (x & y & Hx & Hy & Hxy) (y' & z & Hy' & Hz & Hyz).
  exists x, z. repeat split; try done. rewrite Hy in Hy'. injection Hy' as <-. lia.
Qed.

Lemma insert_sorted_desc x ps :
  numeric (Product.quantity x) = true ->
  products_ok ps = true ->
  sorted_desc ps -> sorted_desc (insert_sorted compareFn x ps).
Proof.
  intros Hx Hps Hs. apply numeric_Num in Hx as [qx Hx].
  induction Hs as [|y ps Hs IH Hy]; simpl.
  - repeat constructor.
  - simpl in Hps. apply andb_prop in Hps as [Hqy Hps].
    apply numeric_Num in Hqy as [qy Hqy].
    unfold after, compareFn. rewrite Hx, Hqy. simpl.
    destruct (Z.ltb_spec 0 (qy - qx)) as [Hlt|Hge].
    + constructor; [by apply IH|].
      rewrite (insert_sorted_perm compareFn x ps).
      constructor; [|done]. exists qy, qx. repeat split; try done. lia.
    + assert (quantity_ge x y) as Hxy.
      { exists qx, qy. repeat split; try done. lia. }
      constructor; [by constructor|].
      constructor; [done|].
      eapply Forall_impl; [exact Hy|]. intros z Hz. by eapply quantity_ge_trans.
Qed.

Lemma sort_sorted_desc ps :
  products_ok ps = true -> sorted_desc (sort compareFn ps).
Proof.
  induction ps as [|x ps IH]; simpl; intros Hps; [constructor|].
  apply andb_prop in Hps as [Hx Hps].
  apply insert_sorted_desc; [done| |by apply IH].
  unfold products_ok. by rewrite sort_forallb.
Qed.

Lemma sorted_desc_take n ps : sorted_desc ps -> sorted_desc (take n ps).
Proof.
  intros Hs. rewrite <- (take_drop n ps) in Hs.
  by apply StronglySorted_app_1_l in Hs.
Qed.

(** The list kept in the record is in descending order and at most ten long. *)
Lemma updateTopProducts_ok items ps :
  numeric_items items = true -> products_ok ps = true ->
  products_ok (updateTopProducts items ps) = true /\
  sorted_desc (updateTopProducts items ps) /\
  (length (updateTopProducts items ps) <= 10)%nat.
Proof.
  intros Hn Hps. unfold updateTopProducts.
  pose proof (fold_upsert_ok items ps Hn Hps) as Hup.
  split; [|split].
  - apply forallb_take. unfold products_ok. by rewrite sort_forallb.
  - apply sorted_desc_take. by apply sort_sorted_desc.
  - rewrite length_take. lia.
Qed.

Lemma hourly_ok_lookup (m : gmap Z jsnum) :
  hourly_ok m = true <-> forall k v, m !! k = Some v -> numeric v = true.
Proof.
  unfold hourly_ok. rewrite forallb_forall. split.
  - intros H k v Hkv. apply (H (k, v)).
    apply list_elem_of_In. by apply elem_of_map_to_list.
  - intros H [k v] Hin. simpl. apply (H k).
    apply elem_of_map_to_list. by apply list_elem_of_In.
Qed.

Lemma countHour_ok h (m : gmap Z jsnum) :
  hourly_ok m = true -> hourly_ok (countHour h m) = true.
Proof.
  rewrite !hourly_ok_lookup. intros H k v. unfold countHour.
  destruct (decide (h = k)) as [->|Hne].
  - rewrite lookup_insert_eq. intros [= <-].
    unfold js_or. destruct (truthy _) eqn:Ht.
    + destruct (default Undef (m !! k)); try done.
    + done.
  - rewrite lookup_insert_ne by done. apply H.
Qed.

Lemma countType_ok ty a b :
  numeric a = true -> numeric b = true ->
  numeric (countType ty (a, b)).1 = true /\ numeric (countType ty (a, b)).2 = true.
Proof.
  intros Ha Hb. unfold countType.
  case_rules; simpl; auto using js_add_numeric.
Qed.

Lemma applyOrder_ok clk orderData s :
  numeric_items (OrderData.items orderData) = true ->
  stats_ok s = true -> stats_ok (applyOrder clk orderData s) = true.
Proof.
  intros Hn Hs. unfold stats_ok in Hs. split_andb.
  destruct (countType_ok (OrderData.type orderData) (dineInOrders s) (takeoutOrders s))
    as [Hd Ht]; [done..|].
  destruct (updateTopProducts_ok (OrderData.items orderData) (topProducts s))
    as (Hp & _ & _); [done..|].
  unfold stats_ok, applyOrder. simpl.
  rewrite itemsInOrder_Num by done.
  rewrite Hd, Ht, Hp, fold_categorize_ok, countHour_ok by done.
  by rewrite !js_add_numeric.
Qed.

Lemma forallb_weaken {A : Type} (P Q : A -> bool) (l : list A) :
  (forall x, P x = true -> Q x = true) -> forallb P l = true -> forallb Q l = true.
Proof.
  intros HPQ. induction l as [|x l IH]; simpl; [done|].
  intros H. apply andb_prop in H as [Hx Hl]. by rewrite HPQ, IH.
Qed.

Lemma stats_ok_validate s : stats_ok s = true -> validate s = true.
Proof.
  intros Hs. unfold stats_ok, category_ok, products_ok, hourly_ok in Hs. split_andb.
  unfold validate.
  repeat (apply andb_true_intro; split); auto using numeric_castable.
  - eapply forallb_weaken; [|eassumption]. intros p. apply numeric_castable.
  - eapply forallb_weaken; [|eassumption]. intros kv. apply numeric_castable.
Qed.

(** ** Runs of the store operations *)

Lemma same_data_refl w : same_data w w.
Proof. by repeat split. Qed.

Lemma same_data_trans w1 w2 w3 : same_data w1 w2 -> same_data w2 w3 -> same_data w1 w3.
Proof. unfold same_data. intros (-> & -> & ->) (-> & -> & ->). done. Qed.

Lemma findOne_inv d w r w' :
  findOne d w = (r, w') ->
  same_data w w' /\ (r = Throw PersistenceError \/ r = Ok (statsColl w !! d)).
Proof.
  unfold findOne, await. destruct (faults w) as [|[] fs]; simpl; intros [= <- <-];
    (split; [by repeat split|]); auto.
Qed.

Lemma findOne_run d w : faults w = [] -> findOne d w = (Ok (statsColl w !! d), w).
Proof. intros H. unfold findOne, await. by rewrite H. Qed.

Lemma save_inv s w r w' :
  save s w = (r, w') ->
  (r = Ok tt /\ validate s = true /\ orders w' = orders w /\
   statsColl w' = <[date s := s]> (statsColl w) /\ console w' = console w) \/
  ((exists e, r = Throw e) /\ same_data w w').
Proof.
  unfold save, await. destruct (validate s); [|intros [= <- <-]; right; split;
    [eauto|apply same_data_refl]].
  destruct (faults w) as [|[] fs]; simpl; intros [= <- <-].
  - left. by repeat split.
  - right. split; [eauto|by repeat split].
  - left. by repeat split.
Qed.

Lemma save_run s w :
  faults w = [] -> validate s = true ->
  save s w = (Ok tt, mkWorld (orders w) (<[date s := s]> (statsColl w)) (console w) []).
Proof. intros Hf Hv. unfold save, await. rewrite Hv. cbv beta. by rewrite !Hf. Qed.

Ltac run_findOne H :=
  match goal with
  | |- context [findOne ?d ?w] =>
      let r := fresh "r" in let w' := fresh "w" in
      destruct (findOne d w) as [r w'] eqn:H;
      apply findOne_inv in H as [H [->| ->]]
  end.

Ltac run_save H :=
  match goal with
  | |- context [save ?s ?w] =>
      let r := fresh "r" in let w' := fresh "w" in
      destruct (save s w) as [r w'] eqn:H;
      apply save_inv in H
  end.

(** A call that returns has saved the record it returns, and that record is
    the current one with the order applied. *)
Lemma updateStats_Ok_inv clk orderData w s w' :
  updateStats clk orderData w = (Ok s, w') ->
  s = applyOrder clk orderData (currentStats clk w) /\
  validate s = true /\
  orders w' = orders w /\
  statsColl w' = <[date s := s]> (statsColl w) /\
  console w' = console w.
Proof.
  unfold updateStats, mbind, M_bind, mret, M_ret, currentStats.
  run_findOne H1; [done|]. destruct H1 as (Ho1 & Hs1 & Hc1).
  destruct (statsColl w !! today clk) as [s0|].
  - run_save H2. destruct H2 as [(-> & Hv & Ho2 & Hs2 & Hc2)|[[e ->] _]]; [|done].
    intros [= <- <-]. repeat split; try done; congruence.
  - run_findOne H3; [done|]. destruct H3 as (Ho3 & Hs3 & Hc3).
    run_save H2. destruct H2 as [(-> & Hv & Ho2 & Hs2 & Hc2)|[[e ->] _]]; [|done].
    intros [= <- <-]. rewrite <- Hs1. repeat split; try done; congruence.
Qed.

(** A call that throws has left the collections as they were. *)
Lemma updateStats_Throw_inv clk orderData w e w' :
  updateStats clk orderData w = (Throw e, w') -> same_data w w'.
Proof.
  unfold updateStats, mbind, M_bind, mret, M_ret.
  run_findOne H1; [by intros [= <- <-]|].
  destruct (statsColl w !! today clk) as [s0|].
  - run_save H2. destruct H2 as [(-> & _)|[[e' ->] Hd2]]; [done|].
    intros [= <- <-]. by eapply same_data_trans.
  - run_findOne H3; [intros [= <- <-]; by eapply same_data_trans|].
    run_save H2. destruct H2 as [(-> & _)|[[e' ->] Hd2]]; [done|].
    intros [= <- <-]. eapply same_data_trans; [|done]. by eapply same_data_trans.
Qed.

(** With no store fault pending and a document that passes validation, the
    call returns. *)
Lemma updateStats_run clk orderData w :
  faults w = [] ->
  validate (applyOrder clk orderData (currentStats clk w)) = true ->
  let s := applyOrder clk orderData (currentStats clk w) in
  updateStats clk orderData w =
    (Ok s, mkWorld (orders w) (<[date s := s]> (statsColl w)) (console w) []).
Proof.
  intros Hf Hv s. unfold updateStats, mbind, M_bind, mret, M_ret.
  rewrite findOne_run by done. unfold currentStats in *.
  destruct (statsColl w !! today clk) as [s0|].
  - fold s. by rewrite save_run.
  - rewrite findOne_run by done. fold s. by rewrite save_run.
Qed.

Lemma store_ok_lookup w d s :
  store_ok w = true -> statsColl w !! d = Some s -> date s = d /\ stats_ok s = true.
Proof.
  unfold store_ok. rewrite forallb_forall. intros H Hs.
  specialize (H (d, s)). simpl in H.
  apply andb_prop in H as [Hd Hok]; [|apply list_elem_of_In; by apply elem_of_map_to_list].
  split; [lia|done].
Qed.

Lemma defaultHourlyStats_ok : hourly_ok defaultHourlyStats = true.
Proof. by vm_compute. Qed.

Lemma newStats_ok clk y :
  (forall s, y = Some s -> stats_ok s = true) -> stats_ok (newStats clk y) = true.
Proof.
  intros Hy. unfold stats_ok, newStats. simpl. rewrite defaultHourlyStats_ok.
  destruct y as [s|]; [|done].
  specialize (Hy s eq_refl). unfold stats_ok in Hy. split_andb.
  repeat match goal with H : _ = true |- _ => rewrite H; clear H end. done.
Qed.

Lemma currentStats_ok clk w :
  store_ok w = true ->
  date (currentStats clk w) = today clk /\ stats_ok (currentStats clk w) = true.
Proof.
  intros Hw. unfold currentStats.
  destruct (statsColl w !! today clk) as [s|] eqn:Hs.
  - by eapply store_ok_lookup.
  - split; [done|]. apply newStats_ok. intros s Hy.
    by eapply store_ok_lookup.
Qed.

(** The invariant of the store is kept by every call, whether it returns
    or throws. *)
Lemma store_ok_insert w w' s :
  store_ok w = true -> stats_ok s = true ->
  statsColl w' = <[date s := s]> (statsColl w) -> store_ok w' = true.
Proof.
  intros Hw Hs Hw'. unfold store_ok. apply forallb_forall. intros [d r] Hin. simpl.
  apply list_elem_of_In, elem_of_map_to_list in Hin. rewrite Hw' in Hin.
  destruct (decide (date s = d)) as [<-|Hne].
  - rewrite lookup_insert_eq in Hin. injection Hin as <-.
    rewrite Hs. apply andb_true_intro. split; [lia|done].
  - rewrite lookup_insert_ne in Hin by done.
    destruct (store_ok_lookup _ _ _ Hw Hin) as [-> ->].
    apply andb_true_intro. split; [lia|done].
Qed.

Lemma store_ok_empty os con fs : store_ok (mkWorld os ∅ con fs) = true.
Proof. done. Qed.

Lemma validate_applyOrder_numeric clk orderData s :
  stats_ok s = true ->
  validate (applyOrder clk orderData s) = true ->
  numeric_items (OrderData.items orderData) = true.
Proof.
  intros Hs Hv. unfold validate in Hv. split_andb. simpl in *.
  match goal with H : castable (js_add (itemsSold s) _) = true |- _ =>
    apply js_add_castable_r in H; by apply fold_add_numeric_inv in H end.
Qed.

Lemma updateStats_store_ok clk orderData w r w' :
  store_ok w = true -> updateStats clk orderData w = (r, w') -> store_ok w' = true.
Proof.
  intros Hw Hrun. destruct r as [s|e].
  - apply updateStats_Ok_inv in Hrun as (Hs & Hv & _ & Hst & _).
    destruct (currentStats_ok clk w Hw) as [_ Hok].
    eapply store_ok_insert; [done| |done].
    rewrite Hs. apply applyOrder_ok; [|done].
    rewrite Hs in Hv. by eapply validate_applyOrder_numeric.
  - apply updateStats_Throw_inv in Hrun as (_ & Hst & _).
    unfold store_ok in *. by rewrite Hst.
Qed.

(** ** The counters of an update *)

Lemma updateStats_returns clk orderData w :
  numeric_items (OrderData.items orderData) = true ->
  store_ok w = true -> faults w = [] ->
  let s := applyOrder clk orderData (currentStats clk w) in
  updateStats clk orderData w =
    (Ok s, mkWorld (orders w) (<[today clk := s]> (statsColl w)) (console w) []).
Proof.
  intros Hn Hw Hf s.
  destruct (currentStats_ok clk w Hw) as [Hd Hok].
  replace (today clk) with (date s) by (by rewrite <- Hd).
  apply updateStats_run; [done|].
  by apply stats_ok_validate, applyOrder_ok.
Qed.

(** The additions on the four counters are exact when the counters lie
    between 0 and a bound that leaves room for the order. *)
Lemma exact_counts_intro clk orderData w bound :
  valid_payload orderData = true ->
  bound + 1 <= MAX_SAFE_INTEGER ->
  bound + total_quantity (OrderData.items orderData) <= MAX_SAFE_INTEGER ->
  at_most bound (totalOrders (currentStats clk w)) = true ->
  at_most bound (ordersToday (currentStats clk w)) = true ->
  at_most bound (itemsSold (currentStats clk w)) = true ->
  at_most bound (itemsSoldToday (currentStats clk w)) = true ->
  exact_counts clk orderData w = true.
Proof.
  intros Hv Hone Hsum Hto Hot His Hist.
  pose proof (valid_payload_numeric _ Hv) as Hn.
  unfold valid_payload in Hv. apply andb_prop in Hv as [_ Hpos].
  pose proof (total_quantity_positive _ Hpos) as Htotal.
  unfold exact_counts. rewrite itemsInOrder_Num by done.
  destruct (totalOrders (currentStats clk w)) as [|a|]; try done.
  destruct (ordersToday (currentStats clk w)) as [|b|]; try done.
  destruct (itemsSold (currentStats clk w)) as [|c|]; try done.
  destruct (itemsSoldToday (currentStats clk w)) as [|d|]; try done.
  simpl in Hto, Hot, His, Hist.
  apply andb_prop in Hto as [? ?]. apply andb_prop in Hot as [? ?].
  apply andb_prop in His as [? ?]. apply andb_prop in Hist as [? ?].
  rewrite (exact_reduce_positive _ 0) by (done || lia).
  repeat match goal with H : (_ <=? _) = true |- _ => apply Z.leb_le in H end.
  unfold exact_sum. simpl.
  rewrite !andb_true_iff, !Z.leb_le. unfold MAX_SAFE_INTEGER in *. lia.
Qed.

(** C1: for a valid order payload (a non-empty list of items, each with a
    positive integer quantity), one call of [updateStats] returns the saved
    record, in which [totalOrders] and [ordersToday] are those of the record
    the call worked on plus exactly 1, and [itemsSold] and [itemsSoldToday]
    are those of that record plus exactly the sum of the quantities of the
    payload.  The additions that the call makes for these counters are
    assumed exact ([exact_counts]): their operands and sums are safe
    integers, of magnitude at most 2^53 - 1.  Beyond that range the program
    rounds a sum to the nearest double, and nothing is stated. *)
Theorem updateStats_counts clk orderData w :
  valid_payload orderData = true -> store_ok w = true -> faults w = [] ->
  exact_counts clk orderData w = true ->
  exists s w',
    updateStats clk orderData w = (Ok s, w') /\
    statsColl w' !! today clk = Some s /\
    increased_by (totalOrders (currentStats clk w)) (totalOrders s) 1 /\
    increased_by (ordersToday (currentStats clk w)) (ordersToday s) 1 /\
    increased_by (itemsSold (currentStats clk w)) (itemsSold s)
      (total_quantity (OrderData.items orderData)) /\
    increased_by (itemsSoldToday (currentStats clk w)) (itemsSoldToday s)
      (total_quantity (OrderData.items orderData)).
Proof.
  intros Hv Hw Hf _. apply valid_payload_numeric in Hv as Hn.
  eexists _, _. split; [by apply updateStats_returns|].
  split; [simpl; by rewrite lookup_insert_eq|].
  destruct (currentStats_ok clk w Hw) as [_ Hok].
  unfold stats_ok in Hok. split_andb.
  repeat match goal with
         | H : numeric _ = true |- _ => apply numeric_Num in H as [? H]
         end.
  unfold increased_by. simpl. rewrite itemsInOrder_Num by done.
  repeat split; eexists; (split; [eassumption|]);
    match goal with H : _ = Num _ |- _ => by rewrite H end.
Qed.

Lemma updateStats_counts_witness :
  valid_payload sample_order = true /\ store_ok sample_world = true /\
  exact_counts sample_clock sample_order sample_world = true /\
  exists s w',
    updateStats sample_clock sample_order sample_world = (Ok s, w') /\
    statsColl w' !! 20000 = Some s /\
    increased_by (Num 5) (totalOrders s) 1 /\
    increased_by (Num 0) (ordersToday s) 1 /\
    increased_by (Num 9) (itemsSold s) 3 /\
    increased_by (Num 0) (itemsSoldToday s) 3.
Proof.
  split; [reflexivity|]. split; [reflexivity|]. split; [reflexivity|].
  apply (updateStats_counts sample_clock sample_order sample_world); reflexivity.
Defined.

(** ** The bounded, sorted list of top products *)

(** C2: after every call of [updateStats] on a well-formed store, the
    [topProducts] list of the saved record has at most 10 entries and is in
    descending order of quantity, whatever the number of distinct item names
    of the order; and the call does return on every payload whose quantities
    are numbers when no store fault is pending. *)
Theorem updateStats_topProducts clk orderData w :
  store_ok w = true ->
  (numeric_items (OrderData.items orderData) = true -> faults w = [] ->
   exists s w', updateStats clk orderData w = (Ok s, w')) /\
  (forall s w',
     updateStats clk orderData w = (Ok s, w') ->
     statsColl w' !! today clk = Some s /\
     (length (topProducts s) <= 10)%nat /\
     sorted_desc (topProducts s)).
Proof.
  intros Hw. split.
  - intros Hn Hf. eexists _, _. by apply updateStats_returns.
  - intros s w' Hrun.
    apply updateStats_Ok_inv in Hrun as (Hs & Hv & _ & Hst & _).
    destruct (currentStats_ok clk w Hw) as [Hd Hok].
    assert (numeric_items (OrderData.items orderData) = true) as Hn.
    { rewrite Hs in Hv. by eapply validate_applyOrder_numeric. }
    assert (products_ok (topProducts (currentStats clk w)) = true) as Hps.
    { unfold stats_ok in Hok. by split_andb. }
    destruct (updateTopProducts_ok _ _ Hn Hps) as (_ & Hsorted & Hlen).
    split; [|by rewrite Hs].
    rewrite Hst. replace (date s) with (today clk) by (by rewrite Hs).
    by rewrite lookup_insert_eq.
Qed.

Lemma updateStats_topProducts_witness :
  store_ok sample_world = true /\
  (exists s w', updateStats sample_clock sample_large_order sample_world = (Ok s, w')) /\
  (forall s w',
     updateStats sample_clock sample_large_order sample_world = (Ok s, w') ->
     statsColl w' !! 20000 = Some s /\
     (length (topProducts s) <= 10)%nat /\
     sorted_desc (topProducts s)).
Proof.
  split; [reflexivity|].
  destruct (updateStats_topProducts sample_clock sample_large_order sample_world eq_refl)
    as [Hreturns Hinv].
  split; [apply Hreturns; reflexivity|exact Hinv].
Defined.

(** ** The first order of a day *)

Lemma first_of_day clk orderData w y n :
  numeric_items (OrderData.items orderData) = true ->
  store_ok w = true -> faults w = [] ->
  statsColl w !! today clk = None ->
  statsColl w !! (today clk - 1) = Some y ->
  totalOrders y = Num n ->
  exists s w',
    updateStats clk orderData w = (Ok s, w') /\
    statsColl w' !! today clk = Some s /\
    totalOrders s = Num (n + 1) /\
    ordersToday s = Num 1.
Proof.
  intros Hn Hw Hf Ht Hy Hty.
  eexists _, _. split; [by apply updateStats_returns|].
  split; [simpl; by rewrite lookup_insert_eq|].
  unfold currentStats. rewrite Ht, Hy. simpl. by rewrite Hty.
Qed.

(** C3: when today has no record and yesterday's record has
    [totalOrders = 5], the first call of [updateStats] of today creates and
    saves a record with [totalOrders = 6] and [ordersToday = 1]. *)
Theorem updateStats_first_of_day clk orderData w y :
  valid_payload orderData = true ->
  store_ok w = true -> faults w = [] ->
  statsColl w !! today clk = None ->
  statsColl w !! (today clk - 1) = Some y ->
  totalOrders y = Num 5 ->
  exists s w',
    updateStats clk orderData w = (Ok s, w') /\
    statsColl w' !! today clk = Some s /\
    totalOrders s = Num 6 /\
    ordersToday s = Num 1.
Proof.
  intros Hv Hw Hf Ht Hy Hty.
  apply valid_payload_numeric in Hv.
  by apply (first_of_day clk orderData w y 5).
Qed.

Lemma updateStats_first_of_day_witness :
  valid_payload sample_order = true /\
  statsColl sample_world !! 20000 = None /\
  statsColl sample_world !! 19999 = Some sample_yesterday /\
  exists s w',
    updateStats sample_clock sample_order sample_world = (Ok s, w') /\
    statsColl w' !! 20000 = Some s /\
    totalOrders s = Num 6 /\
    ordersToday s = Num 1.
Proof.
  split; [reflexivity|]. split; [reflexivity|]. split; [reflexivity|].
  apply (updateStats_first_of_day sample_clock sample_order sample_world sample_yesterday);
    reflexivity.
Defined.

(** ** The hourly counters of a new day *)

Lemma defaultHourlyStats_lookup h :
  defaultHourlyStats !! h = if decide (0 <= h < 24) then Some (Num 0) else None.
Proof.
  unfold defaultHourlyStats.
  assert (((fun h => (h, Num 0)) <$> seqZ 0 24).*1 = seqZ 0 24) as Hkeys by reflexivity.
  destruct (decide (0 <= h < 24)) as [Hin|Hout].
  - apply elem_of_list_to_map_1.
    + rewrite Hkeys. apply NoDup_seqZ.
    + apply list_elem_of_fmap. exists h. split; [done|]. apply elem_of_seqZ. lia.
  - apply not_elem_of_list_to_map_1. rewrite Hkeys, elem_of_seqZ. lia.
Qed.

Lemma countHour_default_at h : countHour h defaultHourlyStats !! h = Some (Num 1).
Proof.
  unfold countHour. rewrite lookup_insert_eq, defaultHourlyStats_lookup.
  by destruct (decide (0 <= h < 24)).
Qed.

Lemma countHour_default_other h k :
  k <> h -> 0 <= k < 24 -> countHour h defaultHourlyStats !! k = Some (Num 0).
Proof.
  intros Hne Hk. unfold countHour.
  rewrite lookup_insert_ne by done. rewrite defaultHourlyStats_lookup.
  by destruct (decide (0 <= k < 24)).
Qed.

(** C4, counterexample: [hourlyStats] is not carried forward.  Yesterday's
    record counts three orders in the ninth hour, and the record created by
    the first order of today, placed in the tenth hour, counts none there;
    its [hourlyStats] is not yesterday's with the current hour counted. *)
Lemma hourlyStats_not_carried_forward :
  statsColl sample_world !! 20000 = None /\
  statsColl sample_world !! 19999 = Some sample_yesterday /\
  hourlyStats sample_yesterday !! 9 = Some (Num 3) /\
  exists s w',
    updateStats sample_clock sample_order sample_world = (Ok s, w') /\
    hourlyStats s !! 9 = Some (Num 0) /\
    hourlyStats s <> countHour 10 (hourlyStats sample_yesterday).
Proof.
  split; [reflexivity|]. split; [reflexivity|]. split; [reflexivity|].
  eexists _, _.
  split; [exact (updateStats_returns sample_clock sample_order sample_world
                   eq_refl eq_refl eq_refl)|].
  split; [by vm_compute|].
  intros Heq. apply (f_equal (fun m => m !! 9)) in Heq. vm_compute in Heq. discriminate.
Qed.

(** C4, amended: [hourlyStats] is not among the paths given to the
    constructor of a new day's record, so it starts from its schema default
    whether or not yesterday has a record: after the call that creates the
    record it counts 1 at the current hour and 0 at every other hour of the
    day.  The list [topProducts] starts empty in the same way.  The fields
    [totalOrders], [itemsSold], [dineInOrders], [takeoutOrders] and
    [categoryStats] are the ones seeded from yesterday's record. *)
Theorem updateStats_new_day clk orderData w :
  numeric_items (OrderData.items orderData) = true ->
  store_ok w = true -> faults w = [] ->
  statsColl w !! today clk = None ->
  exists s w',
    updateStats clk orderData w = (Ok s, w') /\
    statsColl w' !! today clk = Some s /\
    hourlyStats s = countHour (hour clk) defaultHourlyStats /\
    hourlyStats s !! hour clk = Some (Num 1) /\
    (forall h, h <> hour clk -> 0 <= h < 24 -> hourlyStats s !! h = Some (Num 0)) /\
    topProducts s = updateTopProducts (OrderData.items orderData) [] /\
    (forall y, statsColl w !! (today clk - 1) = Some y ->
       totalOrders s = js_add (totalOrders y) (Num 1) /\
       itemsSold s = js_add (itemsSold y) (itemsInOrder (OrderData.items orderData)) /\
       (dineInOrders s, takeoutOrders s)
         = countType (OrderData.type orderData) (dineInOrders y, takeoutOrders y) /\
       categoryStats s
         = fold_left (fun c item => categorize item c) (OrderData.items orderData)
             (categoryStats y)).
Proof.
  intros Hn Hw Hf Ht.
  eexists _, _. split; [by apply updateStats_returns|].
  split; [simpl; by rewrite lookup_insert_eq|].
  unfold currentStats. rewrite Ht. simpl.
  split; [done|]. split; [apply countHour_default_at|].
  split; [intros h ? ?; by apply countHour_default_other|].
  split; [done|].
  intros y ->. simpl. repeat split; try done.
  by destruct (countType _ _).
Qed.

Lemma updateStats_new_day_witness :
  statsColl sample_world !! 20000 = None /\
  exists s w',
    updateStats sample_clock sample_order sample_world = (Ok s, w') /\
    statsColl w' !! 20000 = Some s /\
    hourlyStats s = countHour 10 defaultHourlyStats /\
    hourlyStats s !! 10 = Some (Num 1) /\
    (forall h, h <> 10 -> 0 <= h < 24 -> hourlyStats s !! h = Some (Num 0)) /\
    topProducts s = updateTopProducts (OrderData.items sample_order) [] /\
    (forall y, statsColl sample_world !! 19999 = Some y ->
       totalOrders s = js_add (totalOrders y) (Num 1) /\
       itemsSold s = js_add (itemsSold y) (itemsInOrder (OrderData.items sample_order)) /\
       (dineInOrders s, takeoutOrders s)
         = countType (Some "Dine In") (dineInOrders y, takeoutOrders y) /\
       categoryStats s
         = fold_left (fun c item => categorize item c) (OrderData.items sample_order)
             (categoryStats y)).
Proof.
  split; [reflexivity|].
  apply (updateStats_new_day sample_clock sample_order sample_world); reflexivity.
Defined.

(** ** The keyword rules *)

Lemma fold_categorize_app l1 l2 c :
  fold_left (fun c item => categorize item c) (l1 ++ l2) c
  = fold_left (fun c item => categorize item c) l2
      (fold_left (fun c item => categorize item c) l1 c).
Proof. apply fold_left_app. Qed.

(** C5: an item named "Sizzling Pork Sisig" with quantity [q] matches the
    Rice rule (through "pork") as well as the Sizzling rule; the Rice rule is
    tested first, so the item adds [q] to [categoryStats.Rice] and nothing
    to [categoryStats.Sizzling] or to any other bucket, at its turn in every
    call of [updateStats] whose payload holds it.  Every item adds its
    quantity to one bucket at most. *)
Theorem sizzling_pork_sisig_counts_as_Rice :
  let name := "Sizzling Pork Sisig" in
  (includes (toLowerCase name) "pork" = true /\
   includes (toLowerCase name) "sizzling" = true /\
   includes (toLowerCase name) "sisig" = true) /\
  (forall price q image c,
     let c' := categorize (Item.mk name price q image) c in
     c' = CategoryStats.add_Rice q c /\
     CategoryStats.Rice c' = js_add (CategoryStats.Rice c) q /\
     CategoryStats.Sizzling c' = CategoryStats.Sizzling c) /\
  (forall clk price q image before after subtotal tax total type customer s,
     categoryStats
       (applyOrder clk
          (OrderData.mk (before ++ Item.mk name price q image :: after)
             subtotal tax total type customer) s)
     = fold_left (fun c item => categorize item c) after
         (CategoryStats.add_Rice q
            (fold_left (fun c item => categorize item c) before (categoryStats s)))) /\
  (forall item c,
     let q := Item.quantity item in
     categorize item c = c \/
     categorize item c = CategoryStats.add_Rice q c \/
     categorize item c = CategoryStats.add_Sizzling q c \/
     categorize item c = CategoryStats.add_Party q c \/
     categorize item c = CategoryStats.add_Drink q c \/
     categorize item c = CategoryStats.add_Cafe q c \/
     categorize item c = CategoryStats.add_Milk q c \/
     categorize item c = CategoryStats.add_Frappe q c).
Proof.
  intros name. split; [by vm_compute|]. split; [|split].
  - intros price q image c. by repeat split.
  - intros. unfold applyOrder. simpl. by rewrite fold_categorize_app.
  - intros item c q. unfold categorize. fold q. case_rules; auto 10.
Qed.

(** ** The dashboard *)

(** C6: with no record for today, [getDashboardStats] returns the shape in
    which every counter is 0, [topProducts] is empty and [hourlyStats] is the
    empty mapping; with a record, it returns [totalProducts] as the number
    of entries of [topProducts], [totalStocks] as [itemsSold], [dineInToday]
    and [takeoutToday] as [dineInOrders] and [takeoutOrders], and
    [totalOrders], [ordersToday], [itemsSoldToday], [categoryStats],
    [hourlyStats] and [topProducts] as they are in the record.  The call
    writes nothing: collections and console are as before, also when the
    store rejects the read. *)
Theorem getDashboardStats_projection clk w :
  (faults w = [] ->
   statsColl w !! today clk = None ->
   getDashboardStats clk w =
     (Ok (Dashboard.mk (Num 0) (Num 0) (Num 0) (Num 0) (Num 0) (Num 0) (Num 0)
            (CategoryStats.mk (Num 0) (Num 0) (Num 0) (Num 0) (Num 0) (Num 0) (Num 0))
            ∅ []), w)) /\
  (faults w = [] ->
   forall stats, statsColl w !! today clk = Some stats ->
   exists d,
     getDashboardStats clk w = (Ok d, w) /\
     Dashboard.totalOrders d = totalOrders stats /\
     Dashboard.totalProducts d = Num (Z.of_nat (length (topProducts stats))) /\
     Dashboard.totalStocks d = itemsSold stats /\
     Dashboard.ordersToday d = ordersToday stats /\
     Dashboard.itemsSoldToday d = itemsSoldToday stats /\
     Dashboard.dineInToday d = dineInOrders stats /\
     Dashboard.takeoutToday d = takeoutOrders stats /\
     Dashboard.categoryStats d = categoryStats stats /\
     Dashboard.hourlyStats d = hourlyStats stats /\
     Dashboard.topProducts d = topProducts stats) /\
  (forall r w', getDashboardStats clk w = (r, w') -> same_data w w').
Proof.
  unfold getDashboardStats, mbind, M_bind, mret, M_ret.
  split; [|split].
  - intros Hf Ht. rewrite findOne_run by done. by rewrite Ht.
  - intros Hf stats Ht. rewrite findOne_run by done. rewrite Ht.
    eexists. split; [reflexivity|]. by repeat split.
  - intros r w'. run_findOne H1; [by intros [= <- <-]|].
    destruct (statsColl w !! today clk); by intros [= <- <-].
Qed.

Lemma getDashboardStats_projection_witness :
  getDashboardStats sample_clock sample_world =
    (Ok (Dashboard.mk (Num 0) (Num 0) (Num 0) (Num 0) (Num 0) (Num 0) (Num 0)
           (CategoryStats.mk (Num 0) (Num 0) (Num 0) (Num 0) (Num 0) (Num 0) (Num 0))
           ∅ []), sample_world) /\
  exists d,
    getDashboardStats (mkClock 19999 23 1727999000) sample_world = (Ok d, sample_world) /\
    Dashboard.totalOrders d = Num 5 /\
    Dashboard.totalProducts d = Num 3 /\
    Dashboard.totalStocks d = Num 9 /\
    Dashboard.ordersToday d = Num 5 /\
    Dashboard.itemsSoldToday d = Num 9 /\
    Dashboard.dineInToday d = Num 4 /\
    Dashboard.takeoutToday d = Num 1 /\
    Dashboard.categoryStats d = categoryStats sample_yesterday /\
    Dashboard.hourlyStats d = hourlyStats sample_yesterday /\
    Dashboard.topProducts d = topProducts sample_yesterday.
Proof.
  split.
  - apply (getDashboardStats_projection sample_clock sample_world); reflexivity.
  - apply (proj1 (proj2 (getDashboardStats_projection
                           (mkClock 19999 23 1727999000) sample_world)) eq_refl
             sample_yesterday eq_refl).
Defined.

(** ** The order endpoint *)

(** Once the order is saved, the handler calls [updateStats] on the payload
    with its type defaulted, and answers with the identifier of the saved
    order whatever that call does. *)
Lemma postOrders_run clk orderData w saved w1 :
  accepted orderData = true ->
  placeOrder clk (defaultType orderData) w = (Ok saved, w1) ->
  postOrders clk orderData w =
    match updateStats clk (defaultType orderData) w1 with
    | (Ok _, w2) => (OrderProcessed (Order._id saved), w2)
    | (Throw e, w2) =>
        (OrderProcessed (Order._id saved),
         mkWorld (orders w2) (statsColl w2) (StatsUpdateError e :: console w2) (faults w2))
    end.
Proof.
  unfold accepted. intros Hacc Hplace. apply andb_prop in Hacc as [Hitems Htotal].
  unfold postOrders. apply negb_true_iff in Hitems. rewrite Hitems, Htotal. simpl.
  revert Hplace. unfold placeOrder, mbind, M_bind, mret, M_ret, try_catch.
  destruct (newOrder clk (defaultType orderData) w) as [[order|e0] w0]; [|done].
  destruct (saveOrder order w0) as [[savedOrder|e0] w0']; [|done].
  unfold log. intros [= <- <-].
  by destruct (updateStats clk (defaultType orderData) _) as [[s|e] w2].
Qed.


Lemma placeOrder_inv clk orderData w saved w1 :
  placeOrder clk orderData w = (Ok saved, w1) ->
  Order._id saved = length (orders w) /\
  orders w1 = (orders w ++ [saved])%list /\
  statsColl w1 = statsColl w /\
  console w1 = OrderSaved (Order._id saved) :: console w.
Proof.
  unfold placeOrder, mbind, M_bind, mret, M_ret, newOrder, saveOrder, await, log.
  cbv beta iota. destruct (faults w) as [|[] fs]; simpl; intros [= <- <-]; done.
Qed.

(** C7: when [Stats.updateStats] throws after the order document has been
    saved, the handler logs the error and answers with success and the
    identifier of the saved order; the order stays in its collection and the
    Stats collection is as it was. *)
Theorem postOrders_survives_stats_failure clk orderData w saved w1 e w2 :
  accepted orderData = true ->
  placeOrder clk (defaultType orderData) w = (Ok saved, w1) ->
  updateStats clk (defaultType orderData) w1 = (Throw e, w2) ->
  exists w',
    postOrders clk orderData w = (OrderProcessed (Order._id saved), w') /\
    orders w' = (orders w ++ [saved])%list /\
    statsColl w' = statsColl w /\
    console w' = StatsUpdateError e :: OrderSaved (Order._id saved) :: console w.
Proof.
  intros Hacc Hplace Hstats.
  rewrite (postOrders_run _ _ _ _ _ Hacc Hplace), Hstats.
  apply updateStats_Throw_inv in Hstats as (Ho & Hs & Hc).
  apply placeOrder_inv in Hplace as (_ & Ho1 & Hs1 & Hc1).
  eexists. split; [reflexivity|]. simpl. by rewrite Ho, Hs, Hc, Ho1, Hs1, Hc1.
Qed.

Lemma postOrders_survives_stats_failure_witness :
  accepted order_without_quantity = true /\
  placeOrder sample_clock (defaultType order_without_quantity) sample_world
    = (Ok saved_without_quantity, world_after_save) /\
  updateStats sample_clock (defaultType order_without_quantity) world_after_save
    = (Throw ValidationError, world_after_save) /\
  exists w',
    postOrders sample_clock order_without_quantity sample_world = (OrderProcessed 0, w') /\
    orders w' = [saved_without_quantity] /\
    statsColl w' = {[ 19999 := sample_yesterday ]} /\
    console w' = [StatsUpdateError ValidationError; OrderSaved 0].
Proof.
  split; [reflexivity|]. split; [by vm_compute|]. split; [by vm_compute|].
  apply (postOrders_survives_stats_failure sample_clock order_without_quantity
           sample_world saved_without_quantity world_after_save ValidationError
           world_after_save); by vm_compute.
Defined.

(** The same holds when it is the store that fails: the order is saved, the
    first read of the Stats collection is rejected. *)
Example postOrders_store_failure :
  exists w',
    postOrders sample_clock sample_order
      (mkWorld [] {[ 19999 := sample_yesterday ]} [] [false; true])
    = (OrderProcessed 0, w') /\
    length (orders w') = 1%nat /\
    statsColl w' = {[ 19999 := sample_yesterday ]} /\
    console w' = [StatsUpdateError PersistenceError; OrderSaved 0].
Proof. eexists. split; [by vm_compute|]. by repeat split. Qed.

(** ** A line item without a quantity *)

(** C8: the handler puts the default quantity 1 into the order document it
    saves, and passes the payload itself to [updateStats]: there the
    quantity is still missing, the sum of the quantities is [NaN], the record
    fails validation when it is saved, and no statistics are recorded for the
    order.  Evaluated on [order_without_quantity]. *)
Theorem missing_quantity_reaches_updateStats :
  let passed := defaultType order_without_quantity in
  exists saved w1 w',
    placeOrder sample_clock passed sample_world = (Ok saved, w1) /\
    OrderItem.quantity <$> Order.items saved = [Num 1] /\
    Item.quantity <$> OrderData.items passed = [Undef] /\
    itemsInOrder (OrderData.items passed) = NaN /\
    total_quantity (OrderData.items (OrderData.mk
      [Item.mk "Halo-Halo" (Num 95) (Num 1) None] (Num 95) (Num 0) (Num 95)
      (Some "Take Out") None)) = 1 /\
    updateStats sample_clock passed w1 = (Throw ValidationError, w1) /\
    postOrders sample_clock order_without_quantity sample_world = (OrderProcessed 0, w') /\
    orders w' = [saved] /\
    statsColl w' !! today sample_clock = None /\
    console w' = [StatsUpdateError ValidationError; OrderSaved 0].
Proof.
  intros passed. exists saved_without_quantity, world_after_save. eexists.
  split; [by vm_compute|]. split; [done|]. split; [done|]. split; [done|].
  split; [done|]. split; [by vm_compute|]. split; [by vm_compute|].
  by repeat split.
Qed.

(** With the quantity given as 1, the same order is counted. *)
Example quantity_one_is_counted :
  exists s w',
    updateStats sample_clock
      (OrderData.mk [Item.mk "Halo-Halo" (Num 95) (Num 1) None]
         (Num 95) (Num 0) (Num 95) (Some "Take Out") None) world_after_save
    = (Ok s, w') /\
    itemsSoldToday s = Num 1 /\ takeoutOrders s = Num 2.
Proof. eexists _, _. split; [by vm_compute|]. by split. Qed.

(** ** The type of an order *)





(** ** What the truncation of [topProducts] forgets *)

Lemma upsert_quantities n item ps : forall sold,
  quantities_of n ps = option_list sold ->
  quantities_of n (upsert item ps) = option_list (add_to_order n sold item).
Proof.
  unfold add_to_order.
  induction ps as [|p ps IH]; intros sold Hps; simpl in *.
  - destruct sold; [done|]. by destruct (String.eqb (Item.name item) n).
  - destruct (String.eqb_spec (Product.name p) (Item.name item)) as [Heq|Hne]; simpl.
    + rewrite <- Heq.
      destruct (String.eqb (Product.name p) n); [|done].
      destruct sold as [a|]; [|done]. injection Hps as -> ->. done.
    + destruct (String.eqb_spec (Product.name p) n) as [Hpn|Hpn].
      * destruct sold as [a|]; [|done]. injection Hps as -> Hps.
        rewrite (IH None) by done.
        destruct (String.eqb_spec (Item.name item) n); [congruence|done].
      * by apply IH.
Qed.

Lemma fold_upsert_quantities n items : forall ps sold,
  quantities_of n ps = option_list sold ->
  quantities_of n (fold_left (fun ps item => upsert item ps) items ps)
  = option_list (fold_left (add_to_order n) items sold).
Proof.
  induction items as [|item items IH]; intros ps sold Hps; simpl; [done|].
  apply IH. by apply upsert_quantities.
Qed.

Lemma elem_of_quantities_of n (p : Product.t) (ps : list Product.t) :
  p ∈ ps -> Product.name p = n -> Product.quantity p ∈ quantities_of n ps.
Proof.
  intros Hin Hn. induction Hin as [p ps|p p' ps Hin IH]; simpl.
  - rewrite Hn, String.eqb_refl. left.
  - destruct (String.eqb (Product.name p') n); [right|]; by apply IH.
Qed.

(** An entry of the list kept by an update, for a product that was not in
    the list before, carries what this order alone sells of the product. *)
Lemma reentry_quantity items ps n (p : Product.t) :
  quantities_of n ps = [] ->
  p ∈ updateTopProducts items ps -> Product.name p = n ->
  order_quantity n items = Some (Product.quantity p).
Proof.
  intros Habsent Hin Hn. unfold updateTopProducts in Hin.
  apply (subseteq_take 10) in Hin. rewrite sort_perm in Hin.
  apply (elem_of_quantities_of n) in Hin; [|done].
  rewrite (fold_upsert_quantities n items ps None) in Hin by done.
  fold (order_quantity n items) in Hin.
  destruct (order_quantity n items) as [q|]; simpl in Hin.
  - apply list_elem_of_singleton in Hin. by rewrite Hin.
  - by apply not_elem_of_nil in Hin.
Qed.

(** C10: when more than ten entries exist after the upserts and the sort,
    the record keeps the first ten and the others are gone from the list;
    no other field of the updated record depends on the list the record had
    before, so nothing of the dropped entries is kept elsewhere.  A product
    that is not in the list before an update has, in the list after it, an
    entry with the quantity of that order alone.  In the sample store a
    product sold once falls out of the list, and after a second order of
    seven its entry says 7 where 8 were sold. *)
Theorem topProducts_truncation_forgets :
  (forall clk orderData s,
     let l := sort compareFn
                (fold_left (fun ps item => upsert item ps) (OrderData.items orderData)
                   (topProducts s)) in
     topProducts (applyOrder clk orderData s) = take 10 l /\
     l = (topProducts (applyOrder clk orderData s) ++ drop 10 l)%list /\
     ((10 < length l)%nat ->
      length (topProducts (applyOrder clk orderData s)) = 10%nat /\ drop 10 l <> [])) /\
  (forall clk orderData s ps,
     with_topProducts (topProducts (applyOrder clk orderData s))
       (applyOrder clk orderData (with_topProducts ps s))
     = applyOrder clk orderData s) /\
  (forall clk orderData s n (p : Product.t),
     quantities_of n (topProducts s) = [] ->
     p ∈ topProducts (applyOrder clk orderData s) ->
     Product.name p = n ->
     order_quantity n (OrderData.items orderData) = Some (Product.quantity p)) /\
  (exists s1 w1 s2 w2,
     updateStats sample_clock (order_of "Halo-Halo" 1) busy_world = (Ok s1, w1) /\
     quantities_of "Halo-Halo" (topProducts s1) = [] /\
     itemsSold s1 = Num 61 /\
     updateStats sample_clock (order_of "Halo-Halo" 7) w1 = (Ok s2, w2) /\
     topProducts s2 !! 0%nat = Some (Product.mk "Halo-Halo" (Num 7)) /\
     quantities_of "Halo-Halo" (topProducts s2) = [Num 7] /\
     length (topProducts s2) = 10%nat /\
     itemsSold s2 = Num 68).
Proof.
  split; [|split; [|split]].
  - intros clk orderData s l. unfold applyOrder, updateTopProducts. simpl. fold l.
    split; [done|]. split; [by rewrite take_drop|].
    intros Hlen. split.
    + rewrite length_take. lia.
    + intros Hnil. apply (f_equal length) in Hnil. rewrite length_drop in Hnil.
      simpl in Hnil. lia.
  - done.
  - intros clk orderData s n p. apply reentry_quantity.
  - eexists _, _, _, _.
    split; [exact (updateStats_returns sample_clock (order_of "Halo-Halo" 1) busy_world
                     eq_refl eq_refl eq_refl)|].
    split; [by vm_compute|]. split; [by vm_compute|].
    split; [by vm_compute|]. split; [by vm_compute|]. split; [by vm_compute|].
    split; by vm_compute.
Qed.

(** The order of the list is not strict: entries of equal quantity stay
    next to each other, in the order they had. *)
Example topProducts_ties :
  exists s w',
    updateStats sample_clock (order_of "Halo-Halo" 1) busy_world = (Ok s, w') /\
    topProducts s !! 0%nat = Some (Product.mk "Bulgogi" (Num 5)) /\
    topProducts s !! 1%nat = Some (Product.mk "Lechon Kawali" (Num 5)).
Proof. eexists _, _. split; [by vm_compute|]. by split. Qed.
